(** * Web Feature Services notebook: feature retrieval and axis normalization

    A shallow embedding of the code cell of
    [notebooks/web_feature_services.ipynb] that defines [get_wfs_feature],
    loads the response with [gpd.read_file] and flips the axes of every
    geometry of the resulting GeoDataFrame:

<<
    def get_wfs_feature(base_resource_url):
        wfs = WebFeatureService(base_resource_url, version="2.0.0")
        wfs_contents = wfs.contents
        wfs_layer = list(wfs_contents)[0]
        feature = wfs.getfeature(
            typename=[wfs_layer],
            outputFormat="GeoJson",
        )
        return feature

    feature = get_wfs_feature(base_resource_url)
    gdf = gpd.read_file(feature)
    gdf["geometry"] = gdf["geometry"].map(
        lambda polygon: shapely.ops.transform(lambda x, y: (y, x), polygon))
>>

    The remote server is a parameter of the development.  OWSLib, shapely,
    pandas and geopandas are external collaborators: the parts of them the
    cell calls are modelled by the definitions below, each with the library
    behaviour it stands for. *)

From Stdlib Require Import List String ZArith Bool PrimFloat.
Import ListNotations.
Open Scope string_scope.

Set Implicit Arguments.
Set Warnings "-inexact-float".

(* ================================================================== *)
(** ** Python exceptions and fallible computations *)

(** The built-in exceptions the cell can raise by itself, and the errors the
    collaborators raise (transport failure, a service exception report, an
    unreadable payload). *)
Inductive exn : Type :=
| NameError (name : string)        (* unbound variable *)
| IndexError                       (* list index out of range *)
| KeyError (key : string)          (* missing column *)
| TypeError                        (* wrong number of arguments *)
| AttributeError                   (* attribute of None or of a scalar *)
| ValueError
| ConnectionError (msg : string)   (* requests: transport failure *)
| ServiceException (msg : string)  (* owslib: the server's exception report *)
| DataSourceError (msg : string).  (* pyogrio/fiona: unreadable payload *)

Inductive result (A : Type) : Type :=
| OK (a : A)
| Raise (e : exn).

Arguments OK {A} a.
Arguments Raise {A} e.

Module Res.

Definition bind {A B} (r : result A) (k : A -> result B) : result B :=
  match r with
  | OK a => k a
  | Raise e => Raise e
  end.

Definition fmap {A B} (f : A -> B) (r : result A) : result B :=
  bind r (fun a => OK (f a)).

(** [[f(x) for x in xs]]: the first exception raised ends the comprehension. *)
Fixpoint traverse {A B} (f : A -> result B) (xs : list A) : result (list B) :=
  match xs with
  | [] => OK []
  | x :: rest =>
      bind (f x) (fun y => bind (traverse f rest) (fun ys => OK (y :: ys)))
  end.

End Res.

Declare Scope res_scope.
Delimit Scope res_scope with res.
Notation "'try' x <- r ; k" := (Res.bind r (fun x => k))
  (at level 10, x name, r at level 100, k at level 200) : res_scope.

(* ================================================================== *)
(** ** Geometries (shapely) *)

(** A coordinate component is a Python float.  No arithmetic is ever done on
    one: components are only moved around. *)
Definition coord : Type := float.

(** One position of a coordinate sequence: the tuple [(x, y)] of a planar
    geometry, [(x, y, z)] of a geometry with elevation. *)
Definition position : Type := list coord.

(** [geom.geom_type], grouped the way [shapely.ops.transform] dispatches on
    it. *)
Inductive line_type : Type := Point | LineString | LinearRing.

Inductive multi_type : Type :=
| MultiPoint | MultiLineString | MultiPolygon | GeometryCollection.

#[warnings="-register-all"]
Inductive geometry : Type :=
| Line (t : line_type) (coords : list position)
| Polygon (exterior : list position) (interiors : list (list position))
| Multi (t : multi_type) (geoms : list geometry).

(** Induction over geometries that reaches the parts of a multi-part
    geometry. *)
Section GeometryInd.

Variable P : geometry -> Prop.
Hypothesis HLine : forall t coords, P (Line t coords).
Hypothesis HPolygon : forall exterior interiors, P (Polygon exterior interiors).
Hypothesis HMulti : forall t geoms, Forall P geoms -> P (Multi t geoms).

Fixpoint geometry_ind' (g : geometry) : P g :=
  match g with
  | Line t coords => HLine t coords
  | Polygon exterior interiors => HPolygon exterior interiors
  | Multi t geoms =>
      HMulti t
        ((fix parts (l : list geometry) : Forall P l :=
            match l with
            | [] => Forall_nil P
            | part :: rest => Forall_cons part (geometry_ind' part) (parts rest)
            end) geoms)
  end.

End GeometryInd.

(** [geom.is_empty]: the geometry holds no position at all. *)
Fixpoint is_empty (g : geometry) : bool :=
  match g with
  | Line _ coords => match coords with [] => true | _ => false end
  | Polygon exterior interiors =>
      match exterior with
      | [] => forallb (fun ring => match ring with [] => true | _ => false end)
                      interiors
      | _ => false
      end
  | Multi _ geoms => forallb is_empty geoms
  end.

(** [shapely.ops.transform(func, geom)]: "applies [func] to all coordinates
    of [geom] and returns a new geometry of the same type from the
    transformed coordinates".  [func] receives the components of a position
    as its positional arguments (every tuple of [geom.coords] is unpacked
    into the call) and returns the new position.  An empty geometry is
    returned as it is; a polygon is rebuilt from its transformed shell and
    holes, a multi-part geometry from its transformed parts.  An exception
    of [func] is the exception of the call.  (shapely first calls [func]
    once on the sequences of all first, all second, ... components, and
    position by position when that raises [TypeError]; for a function that
    only rearranges its arguments the positions obtained are the same, and
    a call with the wrong number of arguments raises [TypeError] both
    times.) *)
Fixpoint transform (func : list coord -> result position) (geom : geometry)
  : result geometry :=
  if is_empty geom then OK geom else
  match geom with
  | Line t coords =>
      Res.fmap (Line t) (Res.traverse func coords)
  | Polygon exterior interiors =>
      (try shell <- Res.traverse func exterior;
       try holes <- Res.traverse (Res.traverse func) interiors;
       OK (Polygon shell holes))%res
  | Multi t geoms =>
      Res.fmap (Multi t)
        ((fix parts (l : list geometry) : result (list geometry) :=
            match l with
            | [] => OK []
            | part :: rest =>
                (try part' <- transform func part;
                 try rest' <- parts rest;
                 OK (part' :: rest'))%res
            end) geoms)
  end.

(** [lambda x, y: (y, x)]: a function of exactly two positional arguments.
    Called with any other number of arguments it raises [TypeError]. *)
Definition flip_xy (args : list coord) : result position :=
  match args with
  | [x; y] => OK [y; x]
  | _ => Raise TypeError
  end.

(* ================================================================== *)
(** ** Python dictionaries *)

(** A [dict] with string keys, in insertion order: assigning to a key that
    is present replaces its value where it stands, assigning to a new key
    appends it. *)
Module Dict.

Section Dict.

Variable V : Type.

Definition t : Type := list (string * V).

Definition empty : t := [].

(** [d.get(k)] *)
Fixpoint get (k : string) (d : t) : option V :=
  match d with
  | [] => None
  | (k', v) :: rest => if String.eqb k k' then Some v else get k rest
  end.

(** [d[k] = v] *)
Fixpoint set (k : string) (v : V) (d : t) : t :=
  match d with
  | [] => [(k, v)]
  | (k', v') :: rest =>
      if String.eqb k k' then (k', v) :: rest else (k', v') :: set k v rest
  end.

(** [list(d)] *)
Definition keys (d : t) : list string := List.map fst d.

End Dict.

Arguments empty {V}.

End Dict.

(** [xs[i]] for a non-negative index. *)
Definition list_getitem {A} (xs : list A) (i : nat) : result A :=
  match nth_error xs i with
  | Some x => OK x
  | None => Raise IndexError
  end.

(* ================================================================== *)
(** ** GeoJSON payloads *)

(** The scalar values of a feature's properties and of the attribute
    columns of a table.  [SNull] is a missing value ([None], [NaN]). *)
Inductive scalar : Type :=
| SNull
| SBool (b : bool)
| SInt (z : Z)
| SFloat (f : float)
| SStr (s : string).

(** A GeoJSON feature: its geometry member (which may be [null]) and its
    properties object. *)
Record Feature : Type := {
  geometry_member : option geometry;
  properties : Dict.t scalar
}.

Record FeatureCollection : Type := {
  declared_crs : option string;
  features : list Feature
}.

(** What the server sends back for a GetFeature request: a GeoJSON document,
    or anything else (an exception report, another format). *)
Inductive Body : Type :=
| GeoJSON (fc : FeatureCollection)
| NotGeoJSON (text : string).

(* ================================================================== *)
(** ** Tables (pandas, geopandas) *)

(** One value of a column: a scalar (or a missing value) or a shapely
    geometry. *)
Inductive entry : Type :=
| Val (v : scalar)
| Geom (g : geometry).

(** A [Series]: its values and the row labels they carry. *)
Record Series : Type := {
  s_index : list Z;
  s_values : list entry
}.

(** A [GeoDataFrame]: the row labels, the columns by name, the coordinate
    reference system.  [len(gdf)] is the number of row labels. *)
Record GeoDataFrame : Type := {
  index : list Z;
  columns : Dict.t (list entry);
  crs : option string
}.

(** [len(gdf)] *)
Definition len (gdf : GeoDataFrame) : nat := List.length (index gdf).

(** The values of row [i], column by column. *)
Definition row (gdf : GeoDataFrame) (i : nat) : list (string * option entry) :=
  List.map (fun '(name, values) => (name, nth_error values i)) (columns gdf).

(** [gdf[key]] *)
Definition getitem (gdf : GeoDataFrame) (key : string) : result Series :=
  match Dict.get key (columns gdf) with
  | Some values => OK {| s_index := index gdf; s_values := values |}
  | None => Raise (KeyError key)
  end.

(** [series.map(f)] ([na_action=None]: [f] is called on every value, a
    missing one included); the result keeps the row labels. *)
Definition Series_map (f : entry -> result entry) (s : Series) : result Series :=
  (try values <- Res.traverse f (s_values s);
   OK {| s_index := s_index s; s_values := values |})%res.

(** The value a label carries in a series, a missing value when the series
    does not have the label. *)
Fixpoint lookup_label (label : Z) (labels : list Z) (values : list entry)
  : entry :=
  match labels, values with
  | l :: labels', v :: values' =>
      if Z.eqb label l then v else lookup_label label labels' values'
  | _, _ => Val SNull
  end.

(** [not index.is_unique] *)
Fixpoint has_duplicates (labels : list Z) : bool :=
  match labels with
  | [] => false
  | l :: rest => existsb (Z.eqb l) rest || has_duplicates rest
  end.

(** [series.reindex(labels)]: the value each label carries in [series], a
    missing value for a label it does not have; duplicate labels in
    [series] cannot be reindexed. *)
Definition reindex (s : Series) (labels : list Z) : result (list entry) :=
  if has_duplicates (s_index s) then Raise ValueError
  else OK (List.map (fun l => lookup_label l (s_index s) (s_values s)) labels).

(** [a.equals(b)] on two indexes. *)
Definition index_equals (a b : list Z) : bool :=
  if list_eq_dec Z.eq_dec a b then true else false.

(** [gdf[key] = series]: the values of [series] are taken as they are when
    its index equals the frame's, and realigned on the frame's labels
    otherwise; the column replaces the one of that name or becomes the last
    column.  Row labels, the other columns and the CRS stay. *)
Definition setitem (gdf : GeoDataFrame) (key : string) (value : Series)
  : result GeoDataFrame :=
  (try values <- (if index_equals (s_index value) (index gdf)
                  then OK (s_values value)
                  else reindex value (index gdf));
   OK {| index := index gdf;
         columns := Dict.set key values (columns gdf);
         crs := crs gdf |})%res.

(** The property names of the features, each once, in the order they are
    met. *)
Fixpoint property_names (fs : list Feature) (seen : list string) : list string :=
  match fs with
  | [] => seen
  | f :: rest =>
      property_names rest
        (fold_left
           (fun acc k => if existsb (String.eqb k) acc then acc else (acc ++ [k])%list)
           (Dict.keys (properties f)) seen)
  end.

(** The column of a property: its value feature by feature, a missing
    value for a feature without it. *)
Definition attribute_column (fs : list Feature) (name : string) : list entry :=
  List.map
    (fun f => match Dict.get name (properties f) with
              | Some v => Val v
              | None => Val SNull
              end) fs.

(** The geometry column: the geometry of each feature, a missing value for
    a [null] geometry. *)
Definition geometry_column (fs : list Feature) : list entry :=
  List.map
    (fun f => match geometry_member f with
              | Some g => Geom g
              | None => Val SNull
              end) fs.

(** [RangeIndex(start, start + n)] *)
Fixpoint RangeIndex (start : Z) (n : nat) : list Z :=
  match n with
  | O => []
  | S n' => start :: RangeIndex (start + 1) n'
  end.

(** A scalar the loader can store: an integer has to fit a signed 64-bit
    integer. *)
Definition fits_int64 (v : scalar) : bool :=
  match v with
  | SInt z => (Z.leb (- 2 ^ 63) z && Z.ltb z (2 ^ 63))%Z
  | _ => true
  end.

(** [gpd.read_file(payload)], the tabular loader: one row per feature, in
    the order of the document, labelled [0 .. n-1]; one attribute column
    per property name; the geometries in the column ["geometry"]; the
    declared CRS, or WGS 84 when none is declared.  A payload that is no
    GeoJSON document cannot be read, and neither can a collection with an
    integer property beyond the 64-bit range.  The loader's conversions of
    attribute values (an integer column with a missing value is loaded as
    floats) and the CRS it reports for geometries with an elevation are not
    part of this model: the statements below that go through the loader
    either take what it returned as a hypothesis or are about planar
    collections whose properties are all present. *)
Definition read_file (payload : Body) : result GeoDataFrame :=
  match payload with
  | GeoJSON fc =>
      let fs := features fc in
      let attributes :=
        List.map (fun name => (name, attribute_column fs name))
                 (property_names fs []) in
      if forallb (fun f => forallb (fun kv => fits_int64 (snd kv))
                                   (properties f)) fs
      then
        OK {| index := RangeIndex 0 (List.length fs);
              columns := Dict.set "geometry" (geometry_column fs) attributes;
              crs := Some (match declared_crs fc with
                           | Some c => c
                           | None => "EPSG:4326"
                           end) |}
      else Raise (DataSourceError "integer out of range")
  | NotGeoJSON text => Raise (DataSourceError text)
  end.

(** The function mapped over the geometry column,
    [lambda polygon: shapely.ops.transform(lambda x, y: (y, x), polygon)].
    [transform] starts by reading [polygon.is_empty]: a value that is no
    geometry ([None] for a feature without geometry) has no such
    attribute.  The two exception classes are those of shapely up to 2.1;
    a later shapely raises a class of its own for a position that is no
    pair and hands a missing geometry through.  That the flip of a
    geometry returns exactly when all its positions are pairs, and what it
    returns then, is the same for all of them. *)
Definition flip_polygon (polygon : entry) : result entry :=
  match polygon with
  | Geom g => Res.fmap Geom (transform flip_xy g)
  | Val _ => Raise AttributeError
  end.

(** [gdf["geometry"] = gdf["geometry"].map(flip_polygon)], on the table the
    variable [gdf] is bound to. *)
Definition normalize (gdf : GeoDataFrame) : result GeoDataFrame :=
  (try geometries <- getitem gdf "geometry";
   try flipped <- Series_map flip_polygon geometries;
   setitem gdf "geometry" flipped)%res.

(* ================================================================== *)
(** ** The WFS server and the OWSLib client *)

(** One [FeatureType] element of a capabilities document. *)
Record ContentMetadata : Type := {
  id : string;
  title : string
}.

(** The remote service: what it answers to a capabilities negotiation for a
    service URL and a protocol version (the advertised feature types, in the
    order of the document, or a failure), and what it answers to a
    GetFeature request of the client that was made for that URL and version
    (OWSLib sends the request to the endpoint the capabilities advertise;
    where that is, and what goes on the wire, is the library's and the
    service's business). *)
Record Server : Type := {
  capabilities :
    string -> string -> result (list ContentMetadata);
  feature_response :
    string -> string -> list string -> option string -> result Body
}.

(** The calls of the notebook that reach the server, each with the
    arguments the notebook passes: the constructor of the client, which
    negotiates the capabilities, with the URL and the version it is given,
    and [getfeature] with its feature types and output format. *)
Inductive Request : Type :=
| GetCapabilities (url version : string)
| GetFeature (typename : list string) (outputFormat : option string).

(** The global variables the cell assigns. *)
Record Notebook : Type := {
  var_feature : option Body;
  var_gdf : option GeoDataFrame
}.

(** A run of notebook code from a state of the variables: what it returns
    or raises, the variables afterwards, the requests it sent, in order. *)
Record Run (A : Type) : Type := {
  outcome : result A;
  after : Notebook;
  requests : list Request
}.

Definition Py (A : Type) : Type := Notebook -> Run A.

Module Py.

Definition ret {A} (a : A) : Py A :=
  fun nb => {| outcome := OK a; after := nb; requests := [] |}.

Definition bind {A B} (m : Py A) (k : A -> Py B) : Py B :=
  fun nb =>
    let r := m nb in
    match outcome r with
    | OK a =>
        let r' := k a (after r) in
        {| outcome := outcome r';
           after := after r';
           requests := requests r ++ requests r' |}
    | Raise e =>
        {| outcome := Raise e; after := after r; requests := requests r |}
    end.

(** A computation without effect on the notebook. *)
Definition lift {A} (r : result A) : Py A :=
  fun nb => {| outcome := r; after := nb; requests := [] |}.

(** One exchange with the server. *)
Definition send {A} (req : Request) (answer : result A) : Py A :=
  fun nb => {| outcome := answer; after := nb; requests := [req] |}.

(** Reading a global variable: unbound, it raises [NameError]. *)
Definition read_var {A} (name : string) (var : Notebook -> option A)
  : Py A :=
  fun nb =>
    {| outcome := match var nb with
                  | Some v => OK v
                  | None => Raise (NameError name)
                  end;
       after := nb;
       requests := [] |}.

Definition assign_feature (v : Body) : Py unit :=
  fun nb =>
    {| outcome := OK tt;
       after := {| var_feature := Some v; var_gdf := var_gdf nb |};
       requests := [] |}.

Definition assign_gdf (v : GeoDataFrame) : Py unit :=
  fun nb =>
    {| outcome := OK tt;
       after := {| var_feature := var_feature nb; var_gdf := Some v |};
       requests := [] |}.

End Py.

Declare Scope py_scope.
Delimit Scope py_scope with py.
Notation "x <- m ;; k" := (Py.bind m (fun x => k))
  (at level 61, m at next level, right associativity) : py_scope.
Notation "m ;; k" := (Py.bind m (fun _ => k))
  (at level 61, right associativity) : py_scope.

(** The client object [WebFeatureService(url, version)] returns. *)
Record WebFeatureService_ : Type := {
  wfs_url : string;
  wfs_version : string;
  contents : Dict.t ContentMetadata
}.

Section Client.

Variable server : Server.

(** [WebFeatureService(url, version=version)]: negotiates the capabilities
    of the service at [url] for protocol version [version], and files
    every advertised feature type under its name, in the order of the
    document ([self.contents[cm.id] = cm]). *)
Definition WebFeatureService (url version : string) : Py WebFeatureService_ :=
  (advertised <- Py.send (GetCapabilities url version)
                         (capabilities server url version);;
   Py.ret {| wfs_url := url;
             wfs_version := version;
             contents :=
               fold_left (fun d cm => Dict.set (id cm) cm d)
                         advertised Dict.empty |})%py.

(** [wfs.getfeature(typename=typename, outputFormat=outputFormat)]: one
    GetFeature request of the client [wfs]; the response body. *)
Definition getfeature (wfs : WebFeatureService_) (typename : list string)
           (outputFormat : option string) : Py Body :=
  Py.send
    (GetFeature typename outputFormat)
    (feature_response server (wfs_url wfs) (wfs_version wfs)
                      typename outputFormat).

(** [get_wfs_feature], statement by statement. *)
Definition get_wfs_feature (base_resource_url : string) : Py Body :=
  (wfs <- WebFeatureService base_resource_url "2.0.0";;
   let wfs_contents := contents wfs in
   wfs_layer <- Py.lift (list_getitem (Dict.keys wfs_contents) 0);;
   feature <- getfeature wfs [wfs_layer] (Some "GeoJson");;
   Py.ret feature)%py.

(** [feature = get_wfs_feature(base_resource_url)] *)
Definition fetch_statement (base_resource_url : string) : Py unit :=
  (feature <- get_wfs_feature base_resource_url;;
   Py.assign_feature feature)%py.

(** [gdf = gpd.read_file(feature)] *)
Definition load_statement : Py unit :=
  (feature <- Py.read_var "feature" var_feature;;
   gdf <- Py.lift (read_file feature);;
   Py.assign_gdf gdf)%py.

(** [gdf["geometry"] = gdf["geometry"].map(...)]: the right-hand side is
    evaluated first, then the column of the table [gdf] is bound to is
    assigned.  When the right-hand side raises, nothing is assigned. *)
Definition flip_statement : Py unit :=
  (gdf <- Py.read_var "gdf" var_gdf;;
   gdf' <- Py.lift (normalize gdf);;
   Py.assign_gdf gdf')%py.

(** The statements of the cell that follow the definition of
    [get_wfs_feature], in order. *)
Definition cell (base_resource_url : string) : Py unit :=
  (fetch_statement base_resource_url;;
   load_statement;;
   flip_statement)%py.

End Client.

(** The URL the notebook passes. *)
Definition base_resource_url : string :=
  "https://mapservices.weather.noaa.gov/vector/services/outlooks/cpc_6_10_day_outlk/MapServer/WFSServer?service=WFS&version=1.0.0&request=GetFeature&srsname=EPSG%3A4326&typename=cpc_6_10_day_outlk%3ACPC_6-10_Day_Temperature_Outlook&propertyname=%2A".

(* ================================================================== *)
(** ** What the statements are written with *)

(** A position of exactly two components: a coordinate pair. *)
Definition is_pair (p : position) : bool :=
  match p with
  | [_; _] => true
  | _ => false
  end.

(** A geometry all of whose positions are coordinate pairs. *)
Fixpoint planar (g : geometry) : bool :=
  match g with
  | Line _ coords => forallb is_pair coords
  | Polygon exterior interiors =>
      forallb is_pair exterior && forallb (forallb is_pair) interiors
  | Multi _ geoms => forallb planar geoms
  end.

(** The first and second components of a position, exchanged. *)
Definition swap_components (p : position) : position :=
  match p with
  | x :: y :: rest => y :: x :: rest
  | _ => p
  end.

(** The geometry of the same type and shape with the first and second
    components of every position exchanged. *)
Fixpoint swap_axes (g : geometry) : geometry :=
  match g with
  | Line t coords => Line t (List.map swap_components coords)
  | Polygon exterior interiors =>
      Polygon (List.map swap_components exterior)
              (List.map (List.map swap_components) interiors)
  | Multi t geoms => Multi t (List.map swap_axes geoms)
  end.

(** The first position of a geometry: of the coordinate sequence, of the
    shell of a polygon, of the first part that has one. *)
Fixpoint first_position (g : geometry) : option position :=
  match g with
  | Line _ coords => hd_error coords
  | Polygon exterior _ => hd_error exterior
  | Multi _ geoms =>
      (fix first (l : list geometry) : option position :=
         match l with
         | [] => None
         | part :: rest =>
             match first_position part with
             | Some p => Some p
             | None => first rest
             end
         end) geoms
  end.

(** The geometries of a column that holds nothing else. *)
Fixpoint geometries_of (values : list entry) : option (list geometry) :=
  match values with
  | [] => Some []
  | Geom g :: rest =>
      match geometries_of rest with
      | Some gs => Some (g :: gs)
      | None => None
      end
  | Val _ :: _ => None
  end.

(** The table with another CRS. *)
Definition with_crs (c : option string) (gdf : GeoDataFrame) : GeoDataFrame :=
  {| index := index gdf; columns := columns gdf; crs := c |}.

(** Python's [LookupError]: [IndexError] and [KeyError]. *)
Definition is_LookupError (e : exn) : bool :=
  match e with
  | IndexError | KeyError _ => true
  | _ => false
  end.

(** The output formats the GetFeature requests of a trace declare. *)
Fixpoint declared_formats (trace : list Request) : list (option string) :=
  match trace with
  | [] => []
  | GetFeature _ outputFormat :: rest => outputFormat :: declared_formats rest
  | GetCapabilities _ _ :: rest => declared_formats rest
  end.

(** The protocol versions the capabilities negotiations of a trace ask
    for. *)
Fixpoint negotiated_versions (trace : list Request) : list string :=
  match trace with
  | [] => []
  | GetCapabilities _ version :: rest => version :: negotiated_versions rest
  | GetFeature _ _ :: rest => negotiated_versions rest
  end.

(** The feature types the GetFeature requests of a trace ask for. *)
Fixpoint requested_typenames (trace : list Request) : list (list string) :=
  match trace with
  | [] => []
  | GetFeature typename _ :: rest => typename :: requested_typenames rest
  | GetCapabilities _ _ :: rest => requested_typenames rest
  end.

(** [geom.geom_type] *)
Definition geom_type (g : geometry) : string :=
  match g with
  | Line Point _ => "Point"
  | Line LineString _ => "LineString"
  | Line LinearRing _ => "LinearRing"
  | Polygon _ _ => "Polygon"
  | Multi MultiPoint _ => "MultiPoint"
  | Multi MultiLineString _ => "MultiLineString"
  | Multi MultiPolygon _ => "MultiPolygon"
  | Multi GeometryCollection _ => "GeometryCollection"
  end.

(** The number of positions a geometry holds, its parts and holes
    included. *)
Fixpoint count_coordinates (g : geometry) : nat :=
  match g with
  | Line _ coords => List.length coords
  | Polygon exterior interiors =>
      List.length exterior
      + fold_right (fun ring n => List.length ring + n) 0 interiors
  | Multi _ geoms => fold_right (fun part n => count_coordinates part + n) 0 geoms
  end.

(** A ring that ends on the position it starts from. *)
Definition closed (ring : list position) : Prop :=
  hd_error ring = hd_error (rev ring).

(* ================================================================== *)
(** ** Sample data *)

(** A server that advertises the given feature types and answers every
    GetFeature request with the given body. *)
Definition mock_server (advertised : list ContentMetadata) (body : Body)
  : Server :=
  {| capabilities := fun _ _ => OK advertised;
     feature_response := fun _ _ _ _ => OK body |}.

Definition temperature_outlook : ContentMetadata :=
  {| id := "cpc_6_10_day_outlk:CPC_6-10_Day_Temperature_Outlook";
     title := "CPC 6-10 Day Temperature Outlook" |}.

Definition precipitation_outlook : ContentMetadata :=
  {| id := "cpc_6_10_day_outlk:CPC_6-10_Day_Precipitation_Outlook";
     title := "CPC 6-10 Day Precipitation Outlook" |}.

(** A feature with the attributes [cat = "Above"] and [prob = 33] and a
    polygon whose shell starts at the GeoJSON position [[-88.26, 40.1]] and
    goes on with [ring]. *)
Definition outlook_feature (ring : list position) : Feature :=
  {| geometry_member := Some (Polygon ([-88.26; 40.1]%float :: ring) []);
     properties := [("cat", SStr "Above"); ("prob", SInt 33)] |}.

Definition outlook_collection (ring : list position) : FeatureCollection :=
  {| declared_crs := None; features := [outlook_feature ring] |}.

Definition sample_ring : list position :=
  [[-88.26; 41.5]; [-87.5; 41.5]; [-87.5; 40.1]; [-88.26; 40.1]]%float.

Definition sample_point : geometry := Line Point [[-88.24; 40.1]%float].

Definition sample_polygon : geometry :=
  Polygon ([-88.26; 40.1]%float :: sample_ring) [].

(** A point with an elevation: its position has three components. *)
Definition elevated_point : geometry :=
  Line Point [[-88.24; 40.1; 222.0]%float].

(** A collection of a planar point and a point with an elevation. *)
Definition mixed_collection : FeatureCollection :=
  {| declared_crs := None;
     features :=
       [ {| geometry_member := Some sample_point;
            properties := [("cat", SStr "Above")] |};
         {| geometry_member := Some elevated_point;
            properties := [("cat", SStr "Below")] |} ] |}.

(** A collection of a planar polygon and a planar point. *)
Definition planar_collection : FeatureCollection :=
  {| declared_crs := Some "EPSG:4326";
     features :=
       [ {| geometry_member := Some sample_polygon;
            properties := [("cat", SStr "Above"); ("prob", SInt 33)] |};
         {| geometry_member := Some sample_point;
            properties := [("cat", SStr "Below"); ("prob", SInt 40)] |} ] |}.


(** A table of attributes, without a geometry column. *)
Definition attribute_table : GeoDataFrame :=
  {| index := [0%Z; 1%Z];
     columns := [("cat", [Val (SStr "Above"); Val (SStr "Below")])];
     crs := None |}.

(** A server that cannot be reached. *)
Definition unreachable_server : Server :=
  {| capabilities := fun _ _ => Raise (ConnectionError "unreachable");
     feature_response :=
       fun _ _ _ _ => Raise (ConnectionError "unreachable") |}.

(** A server that advertises the given feature types and answers every
    GetFeature request with an exception report. *)
Definition refusing_server (advertised : list ContentMetadata) : Server :=
  {| capabilities := fun _ _ => OK advertised;
     feature_response :=
       fun _ _ _ _ => Raise (ServiceException "InvalidParameterValue") |}.

Definition fresh_notebook : Notebook :=
  {| var_feature := None; var_gdf := None |}.

(* ================================================================== *)
(** ** Results: fallible computations *)

Unset Implicit Arguments.


Lemma traverse_map {A B} (f : A -> result B) (g : A -> B) (xs : list A) :
  Forall (fun x => f x = OK (g x)) xs ->
  Res.traverse f xs = OK (List.map g xs).
Proof.
  induction 1 as [|x xs Hx _ IH]; simpl; [reflexivity|].
  rewrite Hx, IH; reflexivity.
Qed.

(* ================================================================== *)
(** ** Results: the axis flip of one geometry *)

Lemma flip_xy_pair (p : position) :
  is_pair p = true -> flip_xy p = OK (swap_components p).
Proof.
  destruct p as [|x [|y [|z rest]]]; simpl; try discriminate; reflexivity.
Qed.

Lemma flip_xy_not_pair (p : position) :
  is_pair p = false -> flip_xy p = Raise TypeError.
Proof.
  destruct p as [|x [|y [|z rest]]]; simpl; try discriminate; reflexivity.
Qed.

Lemma swap_components_involutive (p : position) :
  swap_components (swap_components p) = p.
Proof. destruct p as [|x [|y rest]]; reflexivity. Qed.

Lemma is_pair_swap_components (p : position) :
  is_pair (swap_components p) = is_pair p.
Proof. destruct p as [|x [|y [|z rest]]]; reflexivity. Qed.

Lemma map_swap_components_involutive (coords : list position) :
  List.map swap_components (List.map swap_components coords) = coords.
Proof.
  induction coords as [|p coords IH]; simpl; [reflexivity|].
  rewrite swap_components_involutive, IH; reflexivity.
Qed.

Lemma swap_axes_involutive (g : geometry) : swap_axes (swap_axes g) = g.
Proof.
  induction g as [t coords|exterior interiors|t geoms IH] using geometry_ind';
    simpl.
  - rewrite map_swap_components_involutive; reflexivity.
  - rewrite map_swap_components_involutive; f_equal.
    induction interiors as [|ring interiors IHi]; simpl; [reflexivity|].
    rewrite map_swap_components_involutive, IHi; reflexivity.
  - f_equal. induction IH as [|part geoms Hpart _ IHg]; simpl; [reflexivity|].
    rewrite Hpart, IHg; reflexivity.
Qed.

Lemma forallb_is_pair_swap (coords : list position) :
  forallb is_pair (List.map swap_components coords) = forallb is_pair coords.
Proof.
  induction coords as [|p coords IH]; simpl; [reflexivity|].
  rewrite is_pair_swap_components, IH; reflexivity.
Qed.

Lemma planar_swap_axes (g : geometry) : planar (swap_axes g) = planar g.
Proof.
  induction g as [t coords|exterior interiors|t geoms IH] using geometry_ind';
    simpl.
  - apply forallb_is_pair_swap.
  - rewrite forallb_is_pair_swap; f_equal.
    induction interiors as [|ring interiors IHi]; simpl; [reflexivity|].
    rewrite forallb_is_pair_swap, IHi; reflexivity.
  - induction IH as [|part geoms Hpart _ IHg]; simpl; [reflexivity|].
    rewrite Hpart, IHg; reflexivity.
Qed.

(** A geometry without positions is its own flip, so that returning it as
    it is and rebuilding it from its (absent) positions agree. *)
Lemma swap_axes_is_empty (g : geometry) :
  is_empty g = true -> swap_axes g = g.
Proof.
  induction g as [t coords|exterior interiors|t geoms IH] using geometry_ind';
    simpl.
  - destruct coords; [reflexivity|discriminate].
  - destruct exterior; [|discriminate]. intros H; simpl; f_equal.
    induction interiors as [|ring interiors IHi]; simpl in *; [reflexivity|].
    destruct ring; [|discriminate]. simpl; f_equal; apply IHi; exact H.
  - intros H; f_equal.
    induction IH as [|part geoms Hpart _ IHg]; simpl in *; [reflexivity|].
    apply andb_prop in H; destruct H as [Hp Hg].
    rewrite (Hpart Hp), (IHg Hg); reflexivity.
Qed.

(** The parts of a multi-part geometry are transformed one after the
    other. *)
Lemma transform_Multi func (t : multi_type) (geoms : list geometry) :
  transform func (Multi t geoms) =
  if is_empty (Multi t geoms) then OK (Multi t geoms)
  else Res.fmap (Multi t) (Res.traverse (transform func) geoms).
Proof.
  simpl. destruct (forallb is_empty geoms); [reflexivity|].
  f_equal. induction geoms as [|part geoms IH]; simpl; [reflexivity|].
  rewrite IH; reflexivity.
Qed.

Lemma traverse_flip_xy (coords : list position) :
  forallb is_pair coords = true ->
  Res.traverse flip_xy coords = OK (List.map swap_components coords).
Proof.
  intros H; apply traverse_map.
  rewrite forallb_forall in H. apply Forall_forall.
  intros p Hp; apply flip_xy_pair, H, Hp.
Qed.

Lemma traverse_flip_xy_rings (rings : list (list position)) :
  forallb (forallb is_pair) rings = true ->
  Res.traverse (Res.traverse flip_xy) rings =
  OK (List.map (List.map swap_components) rings).
Proof.
  intros H; apply traverse_map.
  rewrite forallb_forall in H. apply Forall_forall.
  intros ring Hr; apply traverse_flip_xy, H, Hr.
Qed.

(** On a geometry made of coordinate pairs the flip returns the geometry
    with the components of every pair exchanged. *)
Lemma transform_flip_xy_planar (g : geometry) :
  planar g = true -> transform flip_xy g = OK (swap_axes g).
Proof.
  induction g as [t coords|exterior interiors|t geoms IH] using geometry_ind';
    intros Hp.
  - destruct (is_empty (Line t coords)) eqn:He.
    + rewrite (swap_axes_is_empty _ He).
      destruct coords; [reflexivity|discriminate].
    + simpl in Hp. destruct coords as [|p coords]; [discriminate|].
      unfold transform, is_empty. rewrite (traverse_flip_xy _ Hp); reflexivity.
  - destruct (is_empty (Polygon exterior interiors)) eqn:He.
    + rewrite (swap_axes_is_empty _ He). simpl in He |- *. rewrite He; reflexivity.
    + simpl in Hp. apply andb_prop in Hp; destruct Hp as [Hs Hh].
      simpl in He |- *. rewrite He.
      rewrite (traverse_flip_xy _ Hs); simpl.
      rewrite (traverse_flip_xy_rings _ Hh); reflexivity.
  - rewrite transform_Multi.
    destruct (is_empty (Multi t geoms)) eqn:He.
    + rewrite (swap_axes_is_empty _ He); reflexivity.
    + simpl in Hp |- *. rewrite (@traverse_map _ _ _ swap_axes); [reflexivity|].
      clear He. induction IH as [|part geoms Hpart _ IHg]; constructor.
      * apply Hpart. simpl in Hp. apply andb_prop in Hp; tauto.
      * apply IHg. simpl in Hp. apply andb_prop in Hp; tauto.
Qed.

Lemma traverse_flip_xy_not_pairs (coords : list position) :
  forallb is_pair coords = false ->
  Res.traverse flip_xy coords = Raise TypeError.
Proof.
  induction coords as [|p coords IH]; simpl; [discriminate|].
  destruct (is_pair p) eqn:E; simpl.
  - intros H. rewrite (flip_xy_pair _ E), (IH H); reflexivity.
  - intros _. rewrite (flip_xy_not_pair _ E); reflexivity.
Qed.

Lemma traverse_flip_xy_not_pairs_rings (rings : list (list position)) :
  forallb (forallb is_pair) rings = false ->
  Res.traverse (Res.traverse flip_xy) rings = Raise TypeError.
Proof.
  induction rings as [|ring rings IH]; simpl; [discriminate|].
  destruct (forallb is_pair ring) eqn:E; simpl.
  - intros H. rewrite (traverse_flip_xy _ E), (IH H); reflexivity.
  - intros _. rewrite (traverse_flip_xy_not_pairs _ E); reflexivity.
Qed.

(** A geometry without positions is planar. *)
Lemma is_empty_planar (g : geometry) : is_empty g = true -> planar g = true.
Proof.
  induction g as [t coords|exterior interiors|t geoms IH] using geometry_ind';
    simpl.
  - destruct coords; [reflexivity|discriminate].
  - destruct exterior; [|discriminate]. simpl.
    induction interiors as [|ring interiors IHi]; simpl; [reflexivity|].
    destruct ring; [exact IHi|discriminate].
  - induction IH as [|part geoms Hpart _ IHg]; simpl; [reflexivity|].
    intros H; apply andb_prop in H; destruct H as [Hp Hg].
    rewrite (Hpart Hp), (IHg Hg); reflexivity.
Qed.

(** The flip of any geometry: the geometry with the components of every
    pair exchanged when all its positions are pairs, and [TypeError] (the
    two-parameter lambda called with the wrong number of arguments) as
    soon as one position is not. *)
Lemma transform_flip_xy (g : geometry) :
  transform flip_xy g =
  if planar g then OK (swap_axes g) else Raise TypeError.
Proof.
  destruct (planar g) eqn:Hp; [apply transform_flip_xy_planar; exact Hp|].
  induction g as [t coords|exterior interiors|t geoms IH] using geometry_ind'.
  - simpl in Hp. destruct coords as [|p coords]; [discriminate|].
    unfold transform, is_empty.
    rewrite (traverse_flip_xy_not_pairs _ Hp); reflexivity.
  - destruct (is_empty (Polygon exterior interiors)) eqn:He;
      [rewrite (is_empty_planar _ He) in Hp; discriminate|].
    simpl in He, Hp |- *. rewrite He.
    destruct (forallb is_pair exterior) eqn:Hs; simpl in Hp.
    + rewrite (traverse_flip_xy _ Hs); simpl.
      rewrite (traverse_flip_xy_not_pairs_rings _ Hp); reflexivity.
    + rewrite (traverse_flip_xy_not_pairs _ Hs); reflexivity.
  - rewrite transform_Multi.
    destruct (is_empty (Multi t geoms)) eqn:He;
      [rewrite (is_empty_planar _ He) in Hp; discriminate|].
    clear He. simpl in Hp.
    replace (Res.traverse (transform flip_xy) geoms)
      with (@Raise (list geometry) TypeError); [reflexivity|].
    induction IH as [|part geoms Hpart _ IHg]; simpl in Hp |- *;
      [discriminate|].
    destruct (planar part) eqn:Epart; simpl in Hp.
    + rewrite (transform_flip_xy_planar _ Epart); simpl.
      rewrite <- (IHg Hp); reflexivity.
    + rewrite (Hpart eq_refl); reflexivity.
Qed.

(* ================================================================== *)
(** ** Results: dictionaries *)

Section DictFacts.

Variable V : Type.
Implicit Types (d : Dict.t V) (k : string) (v : V).

Lemma Dict_get_set_same k v d : Dict.get k (Dict.set k v d) = Some v.
Proof.
  induction d as [|[k' v'] d IH]; simpl.
  - rewrite String.eqb_refl; reflexivity.
  - destruct (String.eqb k k') eqn:E; simpl; rewrite E; [reflexivity|exact IH].
Qed.

Lemma Dict_get_set_other k k' v d :
  k' <> k -> Dict.get k' (Dict.set k v d) = Dict.get k' d.
Proof.
  intros Hne. induction d as [|[k0 v0] d IH]; simpl.
  - apply String.eqb_neq in Hne; rewrite Hne; reflexivity.
  - destruct (String.eqb k k0) eqn:E; simpl.
    + apply String.eqb_eq in E; subst k0.
      apply String.eqb_neq in Hne; rewrite Hne; reflexivity.
    + rewrite IH; reflexivity.
Qed.

(** Assigning to a key that is present keeps the order of the keys. *)
Lemma Dict_keys_set_present k v v0 d :
  Dict.get k d = Some v0 -> Dict.keys (Dict.set k v d) = Dict.keys d.
Proof.
  induction d as [|[k' v'] d IH]; simpl; [discriminate|].
  destruct (String.eqb k k') eqn:E; simpl; [reflexivity|].
  intros H; rewrite (IH H); reflexivity.
Qed.

(** Assigning to a dictionary that has a first key keeps it first. *)
Lemma Dict_first_key_set k v k0 d :
  hd_error (Dict.keys d) = Some k0 ->
  hd_error (Dict.keys (Dict.set k v d)) = Some k0.
Proof.
  destruct d as [|[k' v'] d]; simpl; [discriminate|].
  destruct (String.eqb k k'); simpl; intros H; exact H.
Qed.

End DictFacts.

(* ================================================================== *)
(** ** Results: running notebook code *)

(** Unfolding the combinators of a run, and reducing the projections of the
    runs and notebooks this exposes. *)
Ltac unfold_py :=
  unfold Py.bind, Py.send, Py.ret, Py.lift, Py.read_var, Py.assign_feature,
    Py.assign_gdf.

Ltac step_py :=
  cbn [outcome after requests var_feature var_gdf wfs_url wfs_version
       contents app].


(* ================================================================== *)
(** ** Results: the axis flip of a table *)

Lemma index_equals_refl (labels : list Z) : index_equals labels labels = true.
Proof.
  unfold index_equals. destruct (list_eq_dec Z.eq_dec labels labels); congruence.
Qed.

(** What a table is after a flip that returned. *)
Lemma normalize_OK (gdf gdf' : GeoDataFrame) :
  normalize gdf = OK gdf' ->
  exists values flipped,
    Dict.get "geometry" (columns gdf) = Some values /\
    Res.traverse flip_polygon values = OK flipped /\
    gdf' = {| index := index gdf;
              columns := Dict.set "geometry" flipped (columns gdf);
              crs := crs gdf |}.
Proof.
  unfold normalize, getitem, Series_map, setitem.
  destruct (Dict.get "geometry" (columns gdf)) as [values|] eqn:Hget; simpl;
    [|discriminate].
  destruct (Res.traverse flip_polygon values) as [flipped|e] eqn:Hflip; simpl;
    [|discriminate].
  rewrite index_equals_refl; simpl.
  intros H; inversion H; subst. exists values, flipped.
  repeat split; assumption.
Qed.

(** The flip of a column that holds planar geometries only. *)
Lemma traverse_flip_polygon (values : list entry) (geoms : list geometry) :
  geometries_of values = Some geoms ->
  forallb planar geoms = true ->
  Res.traverse flip_polygon values =
  OK (List.map (fun g => Geom (swap_axes g)) geoms).
Proof.
  revert geoms; induction values as [|[v|g] values IH]; intros geoms; simpl.
  - intros H _; inversion H; reflexivity.
  - discriminate.
  - destruct (geometries_of values) as [gs|]; [|discriminate].
    intros H; inversion H; subst; simpl.
    intros Hp; apply andb_prop in Hp; destruct Hp as [Hg Hgs].
    rewrite (transform_flip_xy_planar _ Hg); simpl.
    rewrite (IH gs eq_refl Hgs); reflexivity.
Qed.

(** The flip of a table whose geometry column holds planar geometries. *)
Lemma normalize_planar (gdf : GeoDataFrame) (values : list entry)
      (geoms : list geometry) :
  Dict.get "geometry" (columns gdf) = Some values ->
  geometries_of values = Some geoms ->
  forallb planar geoms = true ->
  normalize gdf =
  OK {| index := index gdf;
        columns :=
          Dict.set "geometry"
                   (List.map (fun g => Geom (swap_axes g)) geoms)
                   (columns gdf);
        crs := crs gdf |}.
Proof.
  intros Hget Hgeoms Hplanar.
  unfold normalize, getitem, Series_map, setitem.
  rewrite Hget; simpl.
  rewrite (traverse_flip_polygon _ _ Hgeoms Hplanar); simpl.
  rewrite index_equals_refl; reflexivity.
Qed.

Lemma normalize_with_crs (c : option string) (gdf : GeoDataFrame) :
  normalize (with_crs c gdf) = Res.fmap (with_crs c) (normalize gdf).
Proof.
  unfold normalize, getitem, Series_map, setitem, with_crs; simpl.
  destruct (Dict.get "geometry" (columns gdf)) as [values|]; simpl;
    [|reflexivity].
  destruct (Res.traverse flip_polygon values) as [flipped|e]; simpl;
    [|reflexivity].
  rewrite index_equals_refl; reflexivity.
Qed.

(** The flip statement, run on a notebook where [gdf] is bound: the table
    [gdf] is bound to afterwards is the flipped one when the flip returned
    and the table as it was when the flip raised. *)
Lemma flip_statement_run (nb : Notebook) (gdf : GeoDataFrame) :
  var_gdf nb = Some gdf ->
  var_feature (after (flip_statement nb)) = var_feature nb /\
  requests (flip_statement nb) = [] /\
  match normalize gdf with
  | OK gdf' =>
      outcome (flip_statement nb) = OK tt /\
      var_gdf (after (flip_statement nb)) = Some gdf'
  | Raise e =>
      outcome (flip_statement nb) = Raise e /\
      var_gdf (after (flip_statement nb)) = Some gdf
  end.
Proof.
  intros Hgdf. unfold flip_statement; unfold_py; step_py.
  rewrite Hgdf; step_py.
  destruct (normalize gdf) as [gdf'|e]; step_py; auto.
Qed.

(* ================================================================== *)
(** ** The code on the sample data *)

Example flip_sample_point :
  flip_polygon (Geom sample_point)
  = OK (Geom (Line Point [[40.1; -88.24]%float])).
Proof. reflexivity. Qed.

Example flip_sample_polygon :
  flip_polygon (Geom sample_polygon)
  = OK (Geom (Polygon [[40.1; -88.26]; [41.5; -88.26]; [41.5; -87.5];
                       [40.1; -87.5]; [40.1; -88.26]]%float [])).
Proof. reflexivity. Qed.

Example flip_multi_part :
  flip_polygon (Geom (Multi GeometryCollection [sample_point; Line Point []]))
  = OK (Geom (Multi GeometryCollection
                    [Line Point [[40.1; -88.24]%float]; Line Point []])).
Proof. reflexivity. Qed.

Example fetch_two_layers :
  get_wfs_feature
    (mock_server [temperature_outlook; precipitation_outlook]
                 (GeoJSON planar_collection))
    base_resource_url fresh_notebook
  = {| outcome := OK (GeoJSON planar_collection);
       after := fresh_notebook;
       requests :=
         [GetCapabilities base_resource_url "2.0.0";
          GetFeature ["cpc_6_10_day_outlk:CPC_6-10_Day_Temperature_Outlook"]
                     (Some "GeoJson")] |}.
Proof. reflexivity. Qed.

(** A feature type advertised twice is filed once, where it stood first. *)
Example contents_of_repeated_feature_type :
  Dict.keys
    (fold_left (fun d cm => Dict.set (id cm) cm d)
               [temperature_outlook; precipitation_outlook; temperature_outlook]
               Dict.empty)
  = [id temperature_outlook; id precipitation_outlook].
Proof. reflexivity. Qed.

Example read_planar_collection :
  read_file (GeoJSON planar_collection)
  = OK {| index := [0%Z; 1%Z];
          columns := [("cat", [Val (SStr "Above"); Val (SStr "Below")]);
                      ("prob", [Val (SInt 33); Val (SInt 40)]);
                      ("geometry", [Geom sample_polygon; Geom sample_point])];
          crs := Some "EPSG:4326" |}.
Proof. reflexivity. Qed.

(* ================================================================== *)
(** ** C2: the axis flip is an involution on planar geometries *)

(** C2, as stated, fails on a geometry with an elevation: [shapely] hands the
    three components of its position to the two-parameter lambda, which
    raises [TypeError]; applying the normalizer (twice, or once) does not
    return the original geometry. *)
Lemma flip_polygon_elevated_point_raises :
  flip_polygon (Geom elevated_point) = Raise TypeError /\
  (try once <- flip_polygon (Geom elevated_point); flip_polygon once)%res
  = Raise TypeError.
Proof. split; reflexivity. Qed.

(** C2 (amended): for every geometry all of whose positions are coordinate
    pairs (points and polygons in particular), applying the function mapped
    over the geometry column twice returns the original geometry. *)
Theorem flip_polygon_involutive (g : geometry) :
  planar g = true ->
  (try once <- flip_polygon (Geom g); flip_polygon once)%res = OK (Geom g).
Proof.
  intros Hp. unfold flip_polygon at 1.
  rewrite (transform_flip_xy_planar _ Hp); simpl.
  rewrite transform_flip_xy_planar by (rewrite planar_swap_axes; exact Hp).
  simpl. rewrite swap_axes_involutive; reflexivity.
Qed.

Lemma flip_polygon_involutive_witness :
  (planar sample_polygon = true /\
   (try once <- flip_polygon (Geom sample_polygon); flip_polygon once)%res
   = OK (Geom sample_polygon)) /\
  (planar sample_point = true /\
   (try once <- flip_polygon (Geom sample_point); flip_polygon once)%res
   = OK (Geom sample_point)).
Proof.
  split; (split; [reflexivity|]).
  - apply (flip_polygon_involutive sample_polygon); reflexivity.
  - apply (flip_polygon_involutive sample_point); reflexivity.
Defined.

(* ================================================================== *)
(** ** C3: the normalizer exchanges the components of every pair *)

(** C3, as stated, fails on a collection that holds a geometry with an
    elevation: the flip raises, and no pair of any geometry of the table is
    exchanged (the planar point of the first row included): [gdf] stays
    bound to the table as loaded. *)
Lemma normalize_mixed_collection_raises :
  let nb := {| var_feature := Some (GeoJSON mixed_collection);
               var_gdf := None |} in
  outcome ((load_statement;; flip_statement)%py nb) = Raise TypeError /\
  exists gdf : GeoDataFrame,
    var_gdf (after ((load_statement;; flip_statement)%py nb)) = Some gdf /\
    Dict.get "geometry" (columns gdf)
    = Some [Geom sample_point; Geom elevated_point].
Proof.
  intros nb. split; [reflexivity|]. eexists; split; reflexivity.
Qed.

(** C3 (amended): for every table whose geometry column holds, in every
    row, a geometry made of coordinate pairs, the normalizer returns the
    table whose geometry column holds, row by row in the same order, each
    geometry with the first and second components of every pair exchanged;
    the CRS of the table is neither consulted (the outcome is the same for
    any CRS) nor changed. *)
Theorem normalize_swaps_axes (gdf : GeoDataFrame) (values : list entry)
        (geoms : list geometry) :
  Dict.get "geometry" (columns gdf) = Some values ->
  geometries_of values = Some geoms ->
  forallb planar geoms = true ->
  normalize gdf =
  OK {| index := index gdf;
        columns :=
          Dict.set "geometry"
                   (List.map (fun g => Geom (swap_axes g)) geoms)
                   (columns gdf);
        crs := crs gdf |} /\
  forall c : option string,
    Res.fmap columns (normalize (with_crs c gdf)) =
    Res.fmap columns (normalize gdf).
Proof.
  intros Hget Hgeoms Hplanar. split.
  - apply (normalize_planar gdf values geoms); assumption.
  - intros c. rewrite normalize_with_crs.
    destruct (normalize gdf); reflexivity.
Qed.

Lemma normalize_swaps_axes_witness :
  (try gdf <- read_file (GeoJSON planar_collection); normalize gdf)%res =
  OK {| index := [0%Z; 1%Z];
        columns := [("cat", [Val (SStr "Above"); Val (SStr "Below")]);
                    ("prob", [Val (SInt 33); Val (SInt 40)]);
                    ("geometry", [Geom (swap_axes sample_polygon);
                                  Geom (swap_axes sample_point)])];
        crs := Some "EPSG:4326" |}.
Proof.
  exact (proj1 (normalize_swaps_axes
                  {| index := [0%Z; 1%Z];
                     columns :=
                       [("cat", [Val (SStr "Above"); Val (SStr "Below")]);
                        ("prob", [Val (SInt 33); Val (SInt 40)]);
                        ("geometry", [Geom sample_polygon; Geom sample_point])];
                     crs := Some "EPSG:4326" |}
                  [Geom sample_polygon; Geom sample_point]
                  [sample_polygon; sample_point]
                  eq_refl eq_refl eq_refl)).
Defined.

(* ================================================================== *)
(** ** C9: the flip assigns the geometry column only *)

Lemma normalize_frame (gdf gdf' : GeoDataFrame) :
  normalize gdf = OK gdf' ->
  index gdf' = index gdf /\
  crs gdf' = crs gdf /\
  Dict.keys (columns gdf') = Dict.keys (columns gdf) /\
  forall name : string,
    name <> "geometry" ->
    Dict.get name (columns gdf') = Dict.get name (columns gdf).
Proof.
  intros H. destruct (normalize_OK _ _ H) as (values & flipped & Hget & _ & ->).
  simpl. repeat split.
  - apply (Dict_keys_set_present _ _ _ _ _ Hget).
  - intros name Hne. apply Dict_get_set_other; exact Hne.
Qed.

(** C9: for every table [gdf] is bound to, after the flip statement [gdf] is
    bound to a table with the same row labels in the same order, the same
    columns in the same order, the same CRS, and the same values in every
    column other than ["geometry"]; this holds whether the flip returned or
    raised. *)
Theorem flip_statement_frame (nb : Notebook) (gdf : GeoDataFrame) :
  var_gdf nb = Some gdf ->
  exists gdf' : GeoDataFrame,
    var_gdf (after (flip_statement nb)) = Some gdf' /\
    var_feature (after (flip_statement nb)) = var_feature nb /\
    index gdf' = index gdf /\
    crs gdf' = crs gdf /\
    Dict.keys (columns gdf') = Dict.keys (columns gdf) /\
    forall name : string,
      name <> "geometry" ->
      Dict.get name (columns gdf') = Dict.get name (columns gdf).
Proof.
  intros Hgdf.
  destruct (flip_statement_run nb _ Hgdf) as (Hfeature & _ & Hrun).
  destruct (normalize gdf) as [gdf'|e] eqn:Hn; destruct Hrun as [_ Hafter].
  - exists gdf'. destruct (normalize_frame _ _ Hn) as (Hi & Hc & Hk & Hcols).
    repeat split; assumption.
  - exists gdf. repeat split; auto.
Qed.

Lemma flip_statement_frame_witness :
  let gdf :=
    {| index := [0%Z];
       columns := [("cat", [Val (SStr "Above")]); ("prob", [Val (SInt 33)]);
                   ("geometry", [Geom sample_polygon])];
       crs := Some "EPSG:4326" |} in
  let nb := {| var_feature := None; var_gdf := Some gdf |} in
  exists gdf' : GeoDataFrame,
    var_gdf (after (flip_statement nb)) = Some gdf' /\
    var_feature (after (flip_statement nb)) = var_feature nb /\
    index gdf' = index gdf /\
    crs gdf' = crs gdf /\
    Dict.keys (columns gdf') = Dict.keys (columns gdf) /\
    forall name : string,
      name <> "geometry" ->
      Dict.get name (columns gdf') = Dict.get name (columns gdf).
Proof.
  intros gdf nb. exact (@flip_statement_frame nb gdf eq_refl).
Defined.

(* ================================================================== *)
(** ** C7: one row per feature *)




(* ================================================================== *)
(** ** Results: the fetch *)

(** The feature type advertised first is the first key of [wfs.contents],
    whatever is advertised after it (its own name again included). *)
Lemma contents_first_key (advertised : list ContentMetadata)
      (d : Dict.t ContentMetadata) (k0 : string) :
  hd_error (Dict.keys d) = Some k0 ->
  hd_error (Dict.keys (fold_left (fun d cm => Dict.set (id cm) cm d)
                                 advertised d)) = Some k0.
Proof.
  revert d; induction advertised as [|cm advertised IH]; intros d Hd; simpl.
  - exact Hd.
  - apply IH. apply Dict_first_key_set; exact Hd.
Qed.

Lemma list_getitem_0 {A} (xs : list A) :
  list_getitem xs 0 = match hd_error xs with
                      | Some x => OK x
                      | None => Raise IndexError
                      end.
Proof. destruct xs; reflexivity. Qed.

(** Every run of [get_wfs_feature], case by case on what the server
    answers. *)
Lemma get_wfs_feature_run (server : Server) (url : string) (nb : Notebook) :
  get_wfs_feature server url nb =
  match capabilities server url "2.0.0" with
  | Raise e =>
      {| outcome := Raise e; after := nb;
         requests := [GetCapabilities url "2.0.0"] |}
  | OK [] =>
      {| outcome := Raise IndexError; after := nb;
         requests := [GetCapabilities url "2.0.0"] |}
  | OK (first :: _) =>
      {| outcome := feature_response server url "2.0.0" [id first]
                                     (Some "GeoJson");
         after := nb;
         requests := [GetCapabilities url "2.0.0";
                      GetFeature [id first] (Some "GeoJson")] |}
  end.
Proof.
  unfold get_wfs_feature, WebFeatureService, getfeature; unfold_py; step_py.
  destruct (capabilities server url "2.0.0") as [[|first rest]|e]; step_py.
  - reflexivity.
  - rewrite list_getitem_0. cbn [fold_left].
    rewrite (contents_first_key rest _ (id first)) by reflexivity.
    step_py.
    destruct (feature_response server url "2.0.0" [id first] (Some "GeoJson"));
      reflexivity.
  - reflexivity.
Qed.

(* ================================================================== *)
(** ** C1: the first advertised feature type is the one requested *)

(** C1: whenever the capabilities list at least one feature type, the one
    GetFeature request of the fetch asks for the feature type listed first,
    whatever follows it in the list; and the requests of the fetch are the
    same from every state of the notebook. *)
Theorem get_wfs_feature_selects_first_layer
        (server : Server) (url : string) (nb : Notebook)
        (first : ContentMetadata) (rest : list ContentMetadata) :
  capabilities server url "2.0.0" = OK (first :: rest) ->
  requested_typenames (requests (get_wfs_feature server url nb))
  = [[id first]] /\
  forall nb' : Notebook,
    requests (get_wfs_feature server url nb')
    = requests (get_wfs_feature server url nb).
Proof.
  intros Hcap. split.
  - rewrite get_wfs_feature_run, Hcap; reflexivity.
  - intros nb'. rewrite !get_wfs_feature_run, Hcap; reflexivity.
Qed.

Lemma get_wfs_feature_selects_first_layer_witness :
  let server :=
    mock_server [temperature_outlook; precipitation_outlook]
                (GeoJSON (outlook_collection sample_ring)) in
  requested_typenames
    (requests (get_wfs_feature server base_resource_url fresh_notebook))
  = [["cpc_6_10_day_outlk:CPC_6-10_Day_Temperature_Outlook"]] /\
  forall nb' : Notebook,
    requests (get_wfs_feature server base_resource_url nb')
    = requests (get_wfs_feature server base_resource_url fresh_notebook).
Proof.
  intros server.
  exact (@get_wfs_feature_selects_first_layer
           server base_resource_url fresh_notebook
           temperature_outlook [precipitation_outlook] eq_refl).
Defined.

(* ================================================================== *)
(** ** C4: no feature type advertised *)

(** C4, as stated, fails: with no feature type advertised the fetch raises
    [IndexError], an index error. *)
Lemma get_wfs_feature_no_layers_IndexError :
  outcome (get_wfs_feature (mock_server [] (NotGeoJSON ""))
                           base_resource_url fresh_notebook)
  = Raise IndexError /\
  is_LookupError IndexError = true.
Proof. split; reflexivity. Qed.

(** C4 (amended): when the capabilities list no feature type, the fetch
    fails the same way from every state: it raises the [IndexError] of
    [list(wfs_contents)[0]], after the capabilities negotiation, without a
    GetFeature request and without touching the notebook. *)
Theorem get_wfs_feature_no_layers (server : Server) (url : string)
        (nb : Notebook) :
  capabilities server url "2.0.0" = OK [] ->
  get_wfs_feature server url nb =
  {| outcome := Raise IndexError;
     after := nb;
     requests := [GetCapabilities url "2.0.0"] |}.
Proof.
  intros Hcap. rewrite get_wfs_feature_run, Hcap; reflexivity.
Qed.

Lemma get_wfs_feature_no_layers_witness :
  get_wfs_feature (mock_server [] (NotGeoJSON "")) base_resource_url
                  fresh_notebook =
  {| outcome := Raise IndexError;
     after := fresh_notebook;
     requests := [GetCapabilities base_resource_url "2.0.0"] |}.
Proof.
  exact (@get_wfs_feature_no_layers (mock_server [] (NotGeoJSON ""))
           base_resource_url fresh_notebook eq_refl).
Defined.

(* ================================================================== *)
(** ** C5: the output format is declared *)

(** C5: for every server and every URL, every GetFeature request the fetch
    sends declares the output format ["GeoJson"]: the fetch sends one such
    request when the capabilities list a feature type, and none otherwise. *)
Theorem get_wfs_feature_declares_GeoJson
        (server : Server) (url : string) (nb : Notebook) :
  Forall (fun fmt => fmt = Some "GeoJson")
         (declared_formats (requests (get_wfs_feature server url nb))) /\
  declared_formats (requests (get_wfs_feature server url nb)) =
  match capabilities server url "2.0.0" with
  | OK (_ :: _) => [Some "GeoJson"]
  | _ => []
  end.
Proof.
  rewrite get_wfs_feature_run.
  destruct (capabilities server url "2.0.0") as [[|first rest]|e]; simpl;
    split; try reflexivity; repeat constructor.
Qed.

(* ================================================================== *)
(** ** C6: the protocol version of the negotiation *)

(** C6: for every server and every URL (whatever its query string holds),
    the fetch negotiates the capabilities once, first of all, for the
    service at the URL it was given and for protocol version ["2.0.0"]. *)
Theorem get_wfs_feature_negotiates_2_0_0
        (server : Server) (url : string) (nb : Notebook) :
  hd_error (requests (get_wfs_feature server url nb))
  = Some (GetCapabilities url "2.0.0") /\
  negotiated_versions (requests (get_wfs_feature server url nb)) = ["2.0.0"].
Proof.
  rewrite get_wfs_feature_run.
  destruct (capabilities server url "2.0.0") as [[|first rest]|e];
    split; reflexivity.
Qed.

(** The URL of the notebook carries [version=1.0.0]; the negotiation asks
    for ["2.0.0"] all the same. *)
Example base_resource_url_negotiation (server : Server) :
  negotiated_versions
    (requests (get_wfs_feature server base_resource_url fresh_notebook))
  = ["2.0.0"].
Proof.
  rewrite get_wfs_feature_run.
  destruct (capabilities server base_resource_url "2.0.0") as [[|first rest]|e];
    reflexivity.
Qed.

(* ================================================================== *)
(** ** C10: the fetch keeps no state *)

(** C10: for a given server and URL, the fetch returns (or raises) the same
    and sends the same requests from any two states of the notebook; it
    leaves the variables of the notebook as they were; a second invocation
    right after the first returns what the first returned. *)
Theorem get_wfs_feature_stateless
        (server : Server) (url : string) (nb1 nb2 : Notebook) :
  outcome (get_wfs_feature server url nb1)
  = outcome (get_wfs_feature server url nb2) /\
  requests (get_wfs_feature server url nb1)
  = requests (get_wfs_feature server url nb2) /\
  after (get_wfs_feature server url nb1) = nb1 /\
  outcome (get_wfs_feature server url (after (get_wfs_feature server url nb1)))
  = outcome (get_wfs_feature server url nb1).
Proof.
  rewrite !get_wfs_feature_run.
  destruct (capabilities server url "2.0.0") as [[|first rest]|e];
    cbn [outcome after requests]; repeat split; reflexivity.
Qed.

(* ================================================================== *)
(** ** C8: from the endpoint to the table *)

(** The cell, run to its end: when the fetch returns a body that
    [read_file] loads and the flip of the loaded table returns, [feature] is
    bound to the body and [gdf] to the flipped table. *)
Lemma cell_run (server : Server) (url : string) (nb : Notebook)
      (body : Body) (loaded flipped : GeoDataFrame) :
  outcome (get_wfs_feature server url nb) = OK body ->
  read_file body = OK loaded ->
  normalize loaded = OK flipped ->
  outcome (cell server url nb) = OK tt /\
  after (cell server url nb)
  = {| var_feature := Some body; var_gdf := Some flipped |} /\
  requests (cell server url nb) = requests (get_wfs_feature server url nb).
Proof.
  intros Hout Hread Hflip.
  unfold cell, fetch_statement, load_statement, flip_statement; unfold_py.
  step_py. rewrite Hout.
  step_py. rewrite Hread.
  step_py. rewrite Hflip.
  step_py. rewrite !app_nil_r. repeat split; reflexivity.
Qed.

(** C8: with a server that advertises at least one feature type and answers
    the GetFeature request for the first one with a single polygon feature
    of attributes [cat = "Above"], [prob = 33] whose shell starts at
    [[-88.26, 40.1]], the cell ends with [gdf] bound to a table of exactly
    one row (row [0]) whose [cat] is ["Above"], whose [prob] is [33] and
    whose geometry has [(40.1, -88.26)] as its first position. *)
Theorem cell_end_to_end
        (server : Server) (url : string) (nb : Notebook)
        (first : ContentMetadata) (rest : list ContentMetadata)
        (ring : list position) :
  capabilities server url "2.0.0" = OK (first :: rest) ->
  feature_response server url "2.0.0" [id first] (Some "GeoJson")
  = OK (GeoJSON (outlook_collection ring)) ->
  forallb is_pair ring = true ->
  outcome (cell server url nb) = OK tt /\
  exists (gdf : GeoDataFrame) (g : geometry),
    var_gdf (after (cell server url nb)) = Some gdf /\
    len gdf = 1 /\
    row gdf 0 = [("cat", Some (Val (SStr "Above")));
                 ("prob", Some (Val (SInt 33)));
                 ("geometry", Some (Geom g))] /\
    first_position g = Some [40.1; -88.26]%float.
Proof.
  intros Hcap Hresp Hring.
  assert (Hout : outcome (get_wfs_feature server url nb)
                 = OK (GeoJSON (outlook_collection ring))).
  { rewrite get_wfs_feature_run, Hcap; exact Hresp. }
  set (shell := ([-88.26; 40.1]%float :: ring)).
  set (loaded :=
         {| index := [0%Z];
            columns := [("cat", [Val (SStr "Above")]);
                        ("prob", [Val (SInt 33)]);
                        ("geometry", [Geom (Polygon shell [])])];
            crs := Some "EPSG:4326" |}).
  assert (Hread : read_file (GeoJSON (outlook_collection ring)) = OK loaded)
    by reflexivity.
  assert (Hplanar : forallb planar [Polygon shell []] = true).
  { simpl. rewrite Hring; reflexivity. }
  pose proof (normalize_planar loaded [Geom (Polygon shell [])]
                [Polygon shell []] eq_refl eq_refl Hplanar) as Hflip.
  destruct (cell_run server url nb _ _ _ Hout Hread Hflip)
    as (Hok & Hafter & _).
  split; [exact Hok|].
  eexists; exists (swap_axes (Polygon shell [])).
  rewrite Hafter. split; [reflexivity|].
  repeat split; reflexivity.
Qed.

Lemma cell_end_to_end_witness :
  let server :=
    mock_server [temperature_outlook; precipitation_outlook]
                (GeoJSON (outlook_collection sample_ring)) in
  outcome (cell server base_resource_url fresh_notebook) = OK tt /\
  exists (gdf : GeoDataFrame) (g : geometry),
    var_gdf (after (cell server base_resource_url fresh_notebook))
    = Some gdf /\
    len gdf = 1 /\
    row gdf 0 = [("cat", Some (Val (SStr "Above")));
                 ("prob", Some (Val (SInt 33)));
                 ("geometry", Some (Geom g))] /\
    first_position g = Some [40.1; -88.26]%float.
Proof.
  intros server.
  exact (@cell_end_to_end server base_resource_url fresh_notebook
           temperature_outlook [precipitation_outlook] sample_ring
           eq_refl eq_refl eq_refl).
Defined.

(* ================================================================== *)
(** ** Further results: the fetch and its failures *)

Lemma get_wfs_feature_after (server : Server) (url : string) (nb : Notebook) :
  after (get_wfs_feature server url nb) = nb.
Proof.
  rewrite get_wfs_feature_run.
  destruct (capabilities server url "2.0.0") as [[|first rest]|e]; reflexivity.
Qed.

Lemma get_wfs_feature_any_notebook (server : Server) (url : string)
      (nb nb' : Notebook) :
  outcome (get_wfs_feature server url nb')
  = outcome (get_wfs_feature server url nb) /\
  requests (get_wfs_feature server url nb')
  = requests (get_wfs_feature server url nb).
Proof.
  rewrite !get_wfs_feature_run.
  destruct (capabilities server url "2.0.0") as [[|first rest]|e];
    split; reflexivity.
Qed.

(** X1: when the capabilities negotiation fails, [get_wfs_feature] raises the
    error of the negotiation as it is; the negotiation is the only request
    it sent (no GetFeature request follows) and the notebook is as it
    was. *)
Theorem get_wfs_feature_negotiation_failure
        (server : Server) (url : string) (nb : Notebook) (e : exn) :
  capabilities server url "2.0.0" = Raise e ->
  get_wfs_feature server url nb =
  {| outcome := Raise e;
     after := nb;
     requests := [GetCapabilities url "2.0.0"] |}.
Proof.
  intros Hcap. rewrite get_wfs_feature_run, Hcap; reflexivity.
Qed.

Lemma get_wfs_feature_negotiation_failure_witness :
  get_wfs_feature unreachable_server base_resource_url fresh_notebook =
  {| outcome := Raise (ConnectionError "unreachable");
     after := fresh_notebook;
     requests := [GetCapabilities base_resource_url "2.0.0"] |}.
Proof.
  exact (get_wfs_feature_negotiation_failure unreachable_server
           base_resource_url fresh_notebook (ConnectionError "unreachable")
           eq_refl).
Defined.

(** X2: when the capabilities list a feature type, [get_wfs_feature] returns
    what the server answers to the GetFeature request for the first one,
    as it is: the body, GeoJSON or not, or the error the request ended
    with. *)
Theorem get_wfs_feature_returns_raw_response
        (server : Server) (url : string) (nb : Notebook)
        (first : ContentMetadata) (rest : list ContentMetadata) :
  capabilities server url "2.0.0" = OK (first :: rest) ->
  outcome (get_wfs_feature server url nb)
  = feature_response server url "2.0.0" [id first] (Some "GeoJson").
Proof.
  intros Hcap. rewrite get_wfs_feature_run, Hcap; reflexivity.
Qed.

Lemma get_wfs_feature_returns_raw_response_witness :
  outcome (get_wfs_feature
             (mock_server [temperature_outlook; precipitation_outlook]
                          (NotGeoJSON "<ServiceExceptionReport/>"))
             base_resource_url fresh_notebook)
  = OK (NotGeoJSON "<ServiceExceptionReport/>") /\
  outcome (get_wfs_feature (refusing_server [temperature_outlook])
                           base_resource_url fresh_notebook)
  = Raise (ServiceException "InvalidParameterValue").
Proof.
  split.
  - exact (get_wfs_feature_returns_raw_response
             (mock_server [temperature_outlook; precipitation_outlook]
                          (NotGeoJSON "<ServiceExceptionReport/>"))
             base_resource_url fresh_notebook
             temperature_outlook [precipitation_outlook] eq_refl).
  - exact (get_wfs_feature_returns_raw_response
             (refusing_server [temperature_outlook])
             base_resource_url fresh_notebook temperature_outlook [] eq_refl).
Defined.

(* ================================================================== *)
(** ** Further results: the cell, stage by stage *)

(** Every run of the cell, by the stage at which it ends. *)
Lemma cell_stages (server : Server) (url : string) (nb : Notebook) :
  cell server url nb =
  match outcome (get_wfs_feature server url nb) with
  | Raise e =>
      {| outcome := Raise e; after := nb;
         requests := requests (get_wfs_feature server url nb) |}
  | OK body =>
      match read_file body with
      | Raise e =>
          {| outcome := Raise e;
             after := {| var_feature := Some body; var_gdf := var_gdf nb |};
             requests := requests (get_wfs_feature server url nb) |}
      | OK loaded =>
          match normalize loaded with
          | Raise e =>
              {| outcome := Raise e;
                 after := {| var_feature := Some body;
                             var_gdf := Some loaded |};
                 requests := requests (get_wfs_feature server url nb) |}
          | OK flipped =>
              {| outcome := OK tt;
                 after := {| var_feature := Some body;
                             var_gdf := Some flipped |};
                 requests := requests (get_wfs_feature server url nb) |}
          end
      end
  end.
Proof.
  unfold cell, fetch_statement, load_statement, flip_statement; unfold_py.
  step_py. rewrite get_wfs_feature_after.
  destruct (outcome (get_wfs_feature server url nb)) as [body|e]; step_py;
    [|reflexivity].
  destruct (read_file body) as [loaded|e]; step_py;
    [|rewrite !app_nil_r; reflexivity].
  destruct (normalize loaded) as [flipped|e]; step_py;
    rewrite !app_nil_r; reflexivity.
Qed.

(** X5: when the fetch raises, the cell raises the same error and assigns
    nothing: [feature] and [gdf] are as they were before the cell. *)
Theorem cell_fetch_failure
        (server : Server) (url : string) (nb : Notebook) (e : exn) :
  outcome (get_wfs_feature server url nb) = Raise e ->
  outcome (cell server url nb) = Raise e /\
  after (cell server url nb) = nb.
Proof.
  intros Hout. rewrite cell_stages, Hout. split; reflexivity.
Qed.

Lemma cell_fetch_failure_witness :
  let nb := {| var_feature := Some (NotGeoJSON "stale");
               var_gdf := Some attribute_table |} in
  outcome (cell (mock_server [] (GeoJSON planar_collection))
                base_resource_url nb) = Raise IndexError /\
  after (cell (mock_server [] (GeoJSON planar_collection))
              base_resource_url nb) = nb.
Proof.
  intros nb.
  exact (cell_fetch_failure (mock_server [] (GeoJSON planar_collection))
           base_resource_url nb IndexError eq_refl).
Defined.

(** X6: when the fetched body cannot be loaded, the cell raises the error of
    the loader with [feature] already bound to the body and [gdf] still
    what it was before the cell (unbound, or the table of an earlier
    run). *)
Theorem cell_load_failure
        (server : Server) (url : string) (nb : Notebook)
        (body : Body) (e : exn) :
  outcome (get_wfs_feature server url nb) = OK body ->
  read_file body = Raise e ->
  outcome (cell server url nb) = Raise e /\
  var_feature (after (cell server url nb)) = Some body /\
  var_gdf (after (cell server url nb)) = var_gdf nb.
Proof.
  intros Hout Hread. rewrite cell_stages, Hout, Hread.
  repeat split; reflexivity.
Qed.

Lemma cell_load_failure_witness :
  let server := mock_server [temperature_outlook]
                            (NotGeoJSON "<ServiceExceptionReport/>") in
  let nb := {| var_feature := None; var_gdf := Some attribute_table |} in
  outcome (cell server base_resource_url nb)
  = Raise (DataSourceError "<ServiceExceptionReport/>") /\
  var_feature (after (cell server base_resource_url nb))
  = Some (NotGeoJSON "<ServiceExceptionReport/>") /\
  var_gdf (after (cell server base_resource_url nb)) = Some attribute_table.
Proof.
  intros server nb.
  exact (cell_load_failure server base_resource_url nb
           (NotGeoJSON "<ServiceExceptionReport/>")
           (DataSourceError "<ServiceExceptionReport/>") eq_refl eq_refl).
Defined.

(** X7: when the flip raises, the cell raises the same error and leaves [gdf]
    bound to the table as it was loaded, with no axis exchanged. *)
Theorem cell_flip_failure
        (server : Server) (url : string) (nb : Notebook)
        (body : Body) (loaded : GeoDataFrame) (e : exn) :
  outcome (get_wfs_feature server url nb) = OK body ->
  read_file body = OK loaded ->
  normalize loaded = Raise e ->
  outcome (cell server url nb) = Raise e /\
  after (cell server url nb)
  = {| var_feature := Some body; var_gdf := Some loaded |}.
Proof.
  intros Hout Hread Hflip. rewrite cell_stages, Hout, Hread, Hflip.
  split; reflexivity.
Qed.

Lemma cell_flip_failure_witness :
  let server := mock_server [temperature_outlook]
                            (GeoJSON mixed_collection) in
  exists loaded : GeoDataFrame,
    read_file (GeoJSON mixed_collection) = OK loaded /\
    Dict.get "geometry" (columns loaded)
    = Some [Geom sample_point; Geom elevated_point] /\
    outcome (cell server base_resource_url fresh_notebook)
    = Raise TypeError /\
    after (cell server base_resource_url fresh_notebook)
    = {| var_feature := Some (GeoJSON mixed_collection);
         var_gdf := Some loaded |}.
Proof.
  intros server. eexists. split; [reflexivity|]. split; [reflexivity|].
  exact (cell_flip_failure server base_resource_url fresh_notebook
           (GeoJSON mixed_collection) _ TypeError
           eq_refl eq_refl eq_refl).
Defined.

(** X8: running the cell again changes nothing, as long as the server answers
    the same: a second run right after a first one ends the same way, sends
    the same requests and leaves the notebook as the first run left it.  In
    particular the axes are not flipped back: each run flips the table it
    has just loaded. *)
Theorem cell_rerun (server : Server) (url : string) (nb : Notebook) :
  cell server url (after (cell server url nb)) = cell server url nb.
Proof.
  rewrite (cell_stages server url (after (cell server url nb))).
  destruct (get_wfs_feature_any_notebook server url nb
              (after (cell server url nb))) as [Hout Hreq].
  rewrite Hout, Hreq. clear Hout Hreq.
  rewrite !cell_stages.
  destruct (outcome (get_wfs_feature server url nb)) as [body|e];
    [|reflexivity].
  destruct (read_file body) as [loaded|e]; [|reflexivity].
  destruct (normalize loaded); reflexivity.
Qed.

(** X9: when the fetch returns a body and the loader reads it into a table
    whose geometry column holds, in every row, a geometry made of
    coordinate pairs, the cell returns with [feature] bound to the body and
    [gdf] to the loaded table with the geometries of that column replaced,
    row by row, by the geometries with their axes exchanged; the row
    labels, the other columns and the CRS are those of the loaded table. *)
Theorem cell_planar_table
        (server : Server) (url : string) (nb : Notebook)
        (body : Body) (loaded : GeoDataFrame) (values : list entry)
        (geoms : list geometry) :
  outcome (get_wfs_feature server url nb) = OK body ->
  read_file body = OK loaded ->
  Dict.get "geometry" (columns loaded) = Some values ->
  geometries_of values = Some geoms ->
  forallb planar geoms = true ->
  outcome (cell server url nb) = OK tt /\
  after (cell server url nb)
  = {| var_feature := Some body;
       var_gdf :=
         Some {| index := index loaded;
                 columns :=
                   Dict.set "geometry"
                            (List.map (fun g => Geom (swap_axes g)) geoms)
                            (columns loaded);
                 crs := crs loaded |} |}.
Proof.
  intros Hout Hread Hget Hgeoms Hplanar.
  rewrite cell_stages, Hout, Hread.
  rewrite (normalize_planar loaded values geoms Hget Hgeoms Hplanar).
  split; reflexivity.
Qed.

Lemma cell_planar_table_witness :
  let server := mock_server [temperature_outlook; precipitation_outlook]
                            (GeoJSON planar_collection) in
  outcome (cell server base_resource_url fresh_notebook) = OK tt /\
  after (cell server base_resource_url fresh_notebook)
  = {| var_feature := Some (GeoJSON planar_collection);
       var_gdf :=
         Some {| index := [0%Z; 1%Z];
                 columns :=
                   [("cat", [Val (SStr "Above"); Val (SStr "Below")]);
                    ("prob", [Val (SInt 33); Val (SInt 40)]);
                    ("geometry", [Geom (swap_axes sample_polygon);
                                  Geom (swap_axes sample_point)])];
                 crs := Some "EPSG:4326" |} |}.
Proof.
  intros server.
  exact (cell_planar_table server base_resource_url fresh_notebook
           (GeoJSON planar_collection)
           {| index := [0%Z; 1%Z];
              columns :=
                [("cat", [Val (SStr "Above"); Val (SStr "Below")]);
                 ("prob", [Val (SInt 33); Val (SInt 40)]);
                 ("geometry", [Geom sample_polygon; Geom sample_point])];
              crs := Some "EPSG:4326" |}
           [Geom sample_polygon; Geom sample_point]
           [sample_polygon; sample_point]
           eq_refl eq_refl eq_refl eq_refl eq_refl).
Defined.

(* ================================================================== *)
(** ** Further results: the flip of one value *)

(** X10: the mapped lambda returns on a geometry exactly when all the
    positions of the geometry are coordinate pairs: one position with an
    elevation, in any part or hole, makes it raise, and nothing else
    does. *)
Theorem flip_polygon_returns_iff_planar (g : geometry) :
  (exists flipped : entry, flip_polygon (Geom g) = OK flipped)
  <-> planar g = true.
Proof.
  unfold flip_polygon. rewrite transform_flip_xy.
  destruct (planar g); simpl; split.
  - reflexivity.
  - intros _. eexists; reflexivity.
  - intros [flipped H]; discriminate.
  - discriminate.
Qed.

Lemma geom_type_swap_axes (g : geometry) :
  geom_type (swap_axes g) = geom_type g.
Proof. destruct g as [[]| |[]]; reflexivity. Qed.

Lemma count_coordinates_swap_axes (g : geometry) :
  count_coordinates (swap_axes g) = count_coordinates g.
Proof.
  induction g as [t coords|exterior interiors|t geoms IH] using geometry_ind';
    simpl.
  - apply length_map.
  - rewrite length_map. f_equal.
    induction interiors as [|ring interiors IHi]; simpl; [reflexivity|].
    rewrite length_map, IHi; reflexivity.
  - induction IH as [|part geoms Hpart _ IHg]; simpl; [reflexivity|].
    rewrite Hpart, IHg; reflexivity.
Qed.

Lemma is_empty_swap_axes (g : geometry) :
  is_empty (swap_axes g) = is_empty g.
Proof.
  induction g as [t coords|exterior interiors|t geoms IH] using geometry_ind';
    simpl.
  - destruct coords; reflexivity.
  - destruct exterior; [|reflexivity]. simpl.
    induction interiors as [|ring interiors IHi]; simpl; [reflexivity|].
    rewrite IHi. destruct ring; reflexivity.
  - induction IH as [|part geoms Hpart _ IHg]; simpl; [reflexivity|].
    rewrite Hpart, IHg; reflexivity.
Qed.

(** X11: whenever the mapped lambda returns, it returns a geometry of the same
    type as the one it was given, with as many positions, empty exactly
    when the given one is. *)
Theorem flip_polygon_preserves_shape (g : geometry) (flipped : entry) :
  flip_polygon (Geom g) = OK flipped ->
  exists g' : geometry,
    flipped = Geom g' /\
    geom_type g' = geom_type g /\
    count_coordinates g' = count_coordinates g /\
    is_empty g' = is_empty g.
Proof.
  unfold flip_polygon. rewrite transform_flip_xy.
  destruct (planar g); simpl; [|discriminate].
  intros H; inversion H; subst. exists (swap_axes g).
  repeat split;
    [apply geom_type_swap_axes|apply count_coordinates_swap_axes|
     apply is_empty_swap_axes].
Qed.

Lemma flip_polygon_preserves_shape_witness :
  exists g' : geometry,
    Geom (swap_axes sample_polygon) = Geom g' /\
    geom_type g' = "Polygon" /\
    count_coordinates g' = 5 /\
    is_empty g' = false.
Proof.
  exact (flip_polygon_preserves_shape sample_polygon
           (Geom (swap_axes sample_polygon)) eq_refl).
Defined.

Lemma closed_map_swap_components (ring : list position) :
  closed ring -> closed (List.map swap_components ring).
Proof.
  unfold closed. intros H. rewrite <- map_rev.
  destruct ring as [|p ring]; [reflexivity|].
  destruct (rev (p :: ring)) as [|q ring']; [discriminate|].
  simpl in H |- *. inversion H; reflexivity.
Qed.

(** X12: the flip keeps the rings of a polygon closed: a polygon of coordinate
    pairs whose shell and holes each end on the position they start from
    is flipped to a polygon whose shell and holes do, ring for ring, with
    as many positions in each. *)
Theorem flip_polygon_keeps_rings_closed
        (exterior : list position) (interiors : list (list position)) :
  planar (Polygon exterior interiors) = true ->
  closed exterior ->
  Forall closed interiors ->
  exists (shell : list position) (holes : list (list position)),
    flip_polygon (Geom (Polygon exterior interiors))
    = OK (Geom (Polygon shell holes)) /\
    closed shell /\
    Forall closed holes /\
    List.length shell = List.length exterior /\
    List.map (@List.length position) holes
    = List.map (@List.length position) interiors.
Proof.
  intros Hp Hshell Hholes.
  exists (List.map swap_components exterior),
         (List.map (List.map swap_components) interiors).
  split; [|split; [|split; [|split]]].
  - unfold flip_polygon. rewrite (transform_flip_xy_planar _ Hp); reflexivity.
  - apply closed_map_swap_components; exact Hshell.
  - clear Hp. induction Hholes as [|ring rings Hring _ IH]; simpl;
      constructor; [apply closed_map_swap_components; exact Hring|exact IH].
  - apply length_map.
  - rewrite map_map. apply map_ext. intros ring; apply length_map.
Qed.

Lemma flip_polygon_keeps_rings_closed_witness :
  exists (shell : list position) (holes : list (list position)),
    flip_polygon (Geom sample_polygon) = OK (Geom (Polygon shell holes)) /\
    closed shell /\
    Forall closed holes /\
    List.length shell = 5 /\
    List.map (@List.length position) holes = [].
Proof.
  exact (flip_polygon_keeps_rings_closed
           ([-88.26; 40.1]%float :: sample_ring) []
           eq_refl eq_refl (Forall_nil _)).
Defined.

(* ================================================================== *)
(** ** Further results: the flip statement *)

Lemma Dict_set_set {V : Type} (k : string) (v1 v2 : V) (d : Dict.t V) :
  Dict.set k v2 (Dict.set k v1 d) = Dict.set k v2 d.
Proof.
  induction d as [|[k' v'] d IH]; simpl.
  - rewrite String.eqb_refl; reflexivity.
  - destruct (String.eqb k k') eqn:E; simpl; rewrite E;
      [reflexivity|rewrite IH; reflexivity].
Qed.

Lemma Dict_set_get {V : Type} (k : string) (v : V) (d : Dict.t V) :
  Dict.get k d = Some v -> Dict.set k v d = d.
Proof.
  induction d as [|[k' v'] d IH]; simpl; [discriminate|].
  destruct (String.eqb k k') eqn:E.
  - intros H; inversion H; reflexivity.
  - intros H; rewrite (IH H); reflexivity.
Qed.

Lemma geometries_of_map_Geom (geoms : list geometry) :
  geometries_of (List.map Geom geoms) = Some geoms.
Proof.
  induction geoms as [|g geoms IH]; simpl; [reflexivity|].
  rewrite IH; reflexivity.
Qed.

Lemma geometries_of_Some (values : list entry) (geoms : list geometry) :
  geometries_of values = Some geoms -> values = List.map Geom geoms.
Proof.
  revert geoms; induction values as [|[v|g] values IH]; intros geoms; simpl.
  - intros H; inversion H; reflexivity.
  - discriminate.
  - destruct (geometries_of values) as [gs|]; [|discriminate].
    intros H; inversion H; subst; simpl. rewrite (IH gs eq_refl); reflexivity.
Qed.

Lemma forallb_planar_swap_axes (geoms : list geometry) :
  forallb planar (List.map swap_axes geoms) = forallb planar geoms.
Proof.
  induction geoms as [|g geoms IH]; simpl; [reflexivity|].
  rewrite planar_swap_axes, IH; reflexivity.
Qed.

(** Every run of the flip statement. *)
Lemma flip_statement_cases (nb : Notebook) :
  flip_statement nb =
  match var_gdf nb with
  | None => {| outcome := Raise (NameError "gdf"); after := nb;
               requests := [] |}
  | Some gdf =>
      match normalize gdf with
      | Raise e => {| outcome := Raise e; after := nb; requests := [] |}
      | OK gdf' =>
          {| outcome := OK tt;
             after := {| var_feature := var_feature nb;
                         var_gdf := Some gdf' |};
             requests := [] |}
      end
  end.
Proof.
  unfold flip_statement; unfold_py; step_py.
  destruct (var_gdf nb) as [gdf|]; step_py; [|reflexivity].
  destruct (normalize gdf) as [gdf'|e]; reflexivity.
Qed.

(** X13: the flip statement is all or nothing: when it raises, whatever the
    reason (a row that cannot be flipped, no geometry column, [gdf]
    unbound), the notebook is exactly as it was, no geometry of any row
    flipped, and nothing was sent. *)
Theorem flip_statement_raises_unchanged (nb : Notebook) (e : exn) :
  outcome (flip_statement nb) = Raise e ->
  after (flip_statement nb) = nb /\ requests (flip_statement nb) = [].
Proof.
  rewrite flip_statement_cases.
  destruct (var_gdf nb) as [gdf|]; [|split; reflexivity].
  destruct (normalize gdf); [discriminate|split; reflexivity].
Qed.

Lemma flip_statement_raises_unchanged_witness :
  let nb := {| var_feature := None;
               var_gdf :=
                 Some {| index := [0%Z; 1%Z];
                         columns := [("geometry",
                                      [Geom sample_point;
                                       Geom elevated_point])];
                         crs := None |} |} in
  after (flip_statement nb) = nb /\ requests (flip_statement nb) = [].
Proof.
  intros nb.
  exact (flip_statement_raises_unchanged nb TypeError eq_refl).
Defined.

(** X14: on a table without a column named ["geometry"] the flip statement
    raises [KeyError] for that name, and leaves the table as it is. *)
Theorem flip_statement_missing_column (nb : Notebook) (gdf : GeoDataFrame) :
  var_gdf nb = Some gdf ->
  Dict.get "geometry" (columns gdf) = None ->
  flip_statement nb =
  {| outcome := Raise (KeyError "geometry"); after := nb; requests := [] |}.
Proof.
  intros Hgdf Hget. rewrite flip_statement_cases, Hgdf.
  unfold normalize, getitem. rewrite Hget; reflexivity.
Qed.

Lemma flip_statement_missing_column_witness :
  let nb := {| var_feature := None; var_gdf := Some attribute_table |} in
  flip_statement nb =
  {| outcome := Raise (KeyError "geometry"); after := nb; requests := [] |}.
Proof.
  intros nb.
  exact (flip_statement_missing_column nb attribute_table eq_refl eq_refl).
Defined.

Lemma traverse_In_Raise {A B} (f : A -> result B) (x : A) (xs : list A) :
  In x xs ->
  (exists e, f x = Raise e) ->
  exists e, Res.traverse f xs = Raise e.
Proof.
  intros Hin Hx. induction xs as [|a xs IH]; simpl in Hin |- *; [tauto|].
  destruct (f a) as [b|e] eqn:Ha; simpl; [|exists e; reflexivity].
  destruct Hin as [->|Hin].
  - destruct Hx as [e Hx]; rewrite Hx in Ha; discriminate.
  - destruct (IH Hin) as [e He]. rewrite He. exists e; reflexivity.
Qed.

(** X15: one geometry with a position that is no coordinate pair, in any
    row of the geometry column, makes the flip of the whole table raise,
    whatever the other rows hold. *)
Theorem normalize_raises_on_non_planar
        (gdf : GeoDataFrame) (values : list entry) (g : geometry) :
  Dict.get "geometry" (columns gdf) = Some values ->
  In (Geom g) values ->
  planar g = false ->
  exists e : exn, normalize gdf = Raise e.
Proof.
  intros Hget Hin Hg.
  unfold normalize, getitem, Series_map. rewrite Hget; simpl.
  destruct (traverse_In_Raise flip_polygon (Geom g) values Hin) as [e He].
  - exists TypeError. unfold flip_polygon.
    rewrite transform_flip_xy, Hg; reflexivity.
  - exists e. rewrite He; reflexivity.
Qed.

Lemma normalize_raises_on_non_planar_witness :
  exists e : exn,
    normalize {| index := [0%Z; 1%Z; 2%Z];
                 columns := [("geometry",
                              [Geom sample_point; Geom elevated_point;
                               Geom sample_polygon])];
                 crs := None |}
    = Raise e.
Proof.
  exact (normalize_raises_on_non_planar
           {| index := [0%Z; 1%Z; 2%Z];
              columns := [("geometry",
                           [Geom sample_point; Geom elevated_point;
                            Geom sample_polygon])];
              crs := None |}
           [Geom sample_point; Geom elevated_point; Geom sample_polygon]
           elevated_point eq_refl (or_intror (or_introl eq_refl)) eq_refl).
Defined.

(** The flip of a flipped table. *)
Lemma normalize_twice (gdf : GeoDataFrame) (values : list entry)
      (geoms : list geometry) :
  Dict.get "geometry" (columns gdf) = Some values ->
  geometries_of values = Some geoms ->
  forallb planar geoms = true ->
  (try once <- normalize gdf; normalize once)%res = OK gdf.
Proof.
  intros Hget Hgeoms Hplanar.
  rewrite (normalize_planar gdf values geoms Hget Hgeoms Hplanar).
  cbn [Res.bind].
  rewrite (normalize_planar _
             (List.map (fun g => Geom (swap_axes g)) geoms)
             (List.map swap_axes geoms)).
  - cbn [index columns crs]. rewrite Dict_set_set, map_map.
    replace (List.map (fun g => Geom (swap_axes (swap_axes g))) geoms)
      with values.
    + rewrite (Dict_set_get _ _ _ Hget). destruct gdf; reflexivity.
    + rewrite (geometries_of_Some _ _ Hgeoms). apply map_ext.
      intros g; rewrite swap_axes_involutive; reflexivity.
  - cbn [columns]. apply Dict_get_set_same.
  - rewrite <- (map_map swap_axes Geom). apply geometries_of_map_Geom.
  - rewrite forallb_planar_swap_axes; exact Hplanar.
Qed.

(** X16: running the flip statement a second time undoes the first: on a table
    whose geometry column holds geometries made of coordinate pairs, two
    runs in a row return and leave the notebook exactly as it was, the
    table with its geometries, its other columns and their order. *)
Theorem flip_statement_twice
        (nb : Notebook) (gdf : GeoDataFrame) (values : list entry)
        (geoms : list geometry) :
  var_gdf nb = Some gdf ->
  Dict.get "geometry" (columns gdf) = Some values ->
  geometries_of values = Some geoms ->
  forallb planar geoms = true ->
  (flip_statement;; flip_statement)%py nb =
  {| outcome := OK tt; after := nb; requests := [] |}.
Proof.
  intros Hgdf Hget Hgeoms Hplanar.
  pose proof (normalize_twice gdf values geoms Hget Hgeoms Hplanar) as Htwice.
  unfold Py.bind. rewrite (flip_statement_cases nb), Hgdf.
  destruct (normalize gdf) as [once|e]; [|discriminate].
  cbn [Res.bind] in Htwice. cbn [outcome after requests].
  rewrite flip_statement_cases. cbn [var_gdf var_feature].
  rewrite Htwice. cbn [outcome after requests app].
  destruct nb as [f g]; simpl in Hgdf |- *. rewrite Hgdf; reflexivity.
Qed.

Lemma flip_statement_twice_witness :
  let gdf :=
    {| index := [0%Z; 1%Z];
       columns := [("cat", [Val (SStr "Above"); Val (SStr "Below")]);
                   ("geometry", [Geom sample_polygon; Geom sample_point]);
                   ("prob", [Val (SInt 33); Val (SInt 40)])];
       crs := Some "EPSG:4326" |} in
  let nb := {| var_feature := None; var_gdf := Some gdf |} in
  (flip_statement;; flip_statement)%py nb =
  {| outcome := OK tt; after := nb; requests := [] |}.
Proof.
  intros gdf nb.
  exact (flip_statement_twice nb gdf
           [Geom sample_polygon; Geom sample_point]
           [sample_polygon; sample_point] eq_refl eq_refl eq_refl eq_refl).
Defined.
